(** * libROM: the SVD basis generator wrapper and the fast-update incremental SVD

    A shallow embedding of [SVDBasisGenerator.h] (whose member functions are
    defined inline in the header) and of the engine declared in
    [IncrementalSVDFastUpdate.h] (whose member functions are only declared
    there; their bodies follow the design document).

    - a C++ [double] is a binary64 float ([PrimFloat.float]);
    - a C++ [int] is a [Z];
    - a pointer is an [option]: the null pointer is [None];
    - a member function is a computation over the object's state that
      either returns or is stopped by a failed [CAROM_ASSERT]. *)

From Stdlib Require Import ZArith List Bool Lia PeanoNat Floats.
Import ListNotations.

Set Implicit Arguments.

(* ================================================================== *)
(** * Part I: definitions *)
(* ================================================================== *)

(** ** Pointers *)

Definition pointer (A : Type) : Type := option A.

Definition null {A : Type} : pointer A := None.

(** [p != 0] *)
Definition nonnull {A : Type} (p : pointer A) : bool :=
  match p with
  | Some _ => true
  | None => false
  end.

(** ** Member functions: state passing with fatal assertions *)

Inductive outcome (A : Type) : Type :=
| Returned (a : A)
| Aborted.

Arguments Aborted {A}.

(** A member function of an object with state [St] returning an [A].  When
    the call is stopped by an assertion the state component is the state
    the object was in at that moment. *)
Definition M (St A : Type) : Type := St -> outcome A * St.

Definition ret {St A : Type} (a : A) : M St A :=
  fun s => (Returned a, s).

Definition bind {St A B : Type} (m : M St A) (k : A -> M St B) : M St B :=
  fun s =>
    match m s with
    | (Returned a, s') => k a s'
    | (Aborted, s') => (Aborted, s')
    end.

Definition gets {St A : Type} (f : St -> A) : M St A :=
  fun s => (Returned (f s), s).

Definition modify {St : Type} (f : St -> St) : M St unit :=
  fun s => (Returned tt, f s).

Declare Scope member_scope.
Delimit Scope member_scope with member.

Notation "x <- c1 ;; c2" := (bind c1 (fun x => c2))
  (at level 100, c1 at next level, right associativity) : member_scope.
Notation "c1 ;; c2" := (bind c1 (fun _ => c2))
  (at level 100, right associativity) : member_scope.

Local Open Scope member_scope.

(** Modelled from the spec: the macro [CAROM_ASSERT] is used by the headers
    but defined in a file that is not among the sources modelled here.  The design
    document makes a violated precondition "a fatal assertion failure, not a
    recoverable error": the call stops and nothing after the assertion
    runs. *)
Definition CAROM_ASSERT {St : Type} (EXP : bool) : M St unit :=
  fun s => if EXP then (Returned tt, s) else (Aborted, s).

(** C++ [if (c) { body }] with no [else]. *)
Definition when {St : Type} (c : bool) (body : M St unit) : M St unit :=
  if c then body else ret tt.

(** ** Dense vectors and matrices

    Modelled from the spec: the [Vector] and [Matrix] classes are named by
    the headers ([const Matrix*], [const Vector*]) but declared elsewhere.
    The design document describes them as "fixed-size dense numeric
    containers supporting multiply, transpose, inverse, norm":
    a matrix carries its row and column counts and its entries in row-major
    order. *)

Definition Vector : Type := list float.

Record Matrix : Type := {
  numRows : nat;
  numColumns : nat;
  d_mat : list float
}.

Definition item (m : Matrix) (row col : nat) : float :=
  nth (row * numColumns m + col) (d_mat m) 0%float.

(** The [rows] x [cols] matrix whose entry [(i, j)] is [f i j]. *)
Definition build (rows cols : nat) (f : nat -> nat -> float) : Matrix :=
  {| numRows := rows;
     numColumns := cols;
     d_mat := flat_map (fun i => map (f i) (seq 0 cols)) (seq 0 rows) |}.

Definition wellFormed (m : Matrix) : Prop :=
  length (d_mat m) = numRows m * numColumns m.

(** Left-to-right accumulation, as a [for] loop over the entries does. *)
Definition sum (l : list float) : float :=
  fold_left PrimFloat.add l 0%float.

Definition inner_product (u v : Vector) : float :=
  sum (map (fun p => (fst p * snd p)%float) (combine u v)).

Definition norm (u : Vector) : float :=
  PrimFloat.sqrt (inner_product u u).

(** [A * B] *)
Definition mult (A B : Matrix) : Matrix :=
  build (numRows A) (numColumns B)
    (fun i j =>
       sum (map (fun k => (item A i k * item B k j)%float)
              (seq 0 (numColumns A)))).

(** [A^T * v] *)
Definition transposeMult (A : Matrix) (v : Vector) : Vector :=
  map (fun j =>
         sum (map (fun i => (item A i j * nth i v 0)%float)
                (seq 0 (numRows A))))
    (seq 0 (numColumns A)).

(** [A * v] *)
Definition multVector (A : Matrix) (v : Vector) : Vector :=
  map (fun i =>
         sum (map (fun k => (item A i k * nth k v 0)%float)
                (seq 0 (numColumns A))))
    (seq 0 (numRows A)).

(** [u - v], entry by entry *)
Definition minus (u v : Vector) : Vector :=
  map (fun p => (fst p - snd p)%float) (combine u v).

(** [[A, c]]: the matrix [A] with the column [c] appended *)
Definition appendColumn (A : Matrix) (c : Vector) : Matrix :=
  build (numRows A) (S (numColumns A))
    (fun i j => if j <? numColumns A then item A i j else nth i c 0%float).

(** The matrix [A] with every row of [B] appended below *)
Definition appendRows (A B : Matrix) : Matrix :=
  build (numRows A + numRows B) (numColumns A)
    (fun i j => if i <? numRows A then item A i j else item B (i - numRows A) j).

(** The row vector [[0, ..., 0, 1]] of length [n + 1] *)
Definition lastUnitRow (n : nat) : Matrix :=
  build 1 (S n) (fun _ j => if j =? n then 1%float else 0%float).

(** A vector as a one-row matrix *)
Definition rowMatrix (v : Vector) : Matrix :=
  build 1 (length v) (fun _ j => nth j v 0%float).

(** ** The collaborators of [SVDBasisGenerator]

    The header uses [SVDSampler] and [BasisWriter] through pointers and
    includes their declarations from files that are not modelled.  They are
    interfaces here: any implementation can stand behind the pointers.

    [isNewTimeInterval] and [getNumBasisTimeIntervals] are queries (the
    latter is called from a [const] member function); every other member
    function may change the object it is called on and may itself stop on
    an assertion. *)

Class SVDSampler (S : Type) : Type := {
  sampler_isNextSample : float -> M S bool;
  sampler_isNewTimeInterval : S -> bool;
  sampler_resetDt : float -> M S unit;
  sampler_takeSample : pointer Vector -> float -> M S unit;
  sampler_computeNextSampleTime :
    pointer Vector -> pointer Vector -> float -> M S float;
  sampler_getBasis : M S (pointer Matrix);
  sampler_getNumBasisTimeIntervals : S -> Z;
  sampler_getBasisIntervalStartTime : Z -> M S float
}.

(** The writer reads the basis through the sampler, so [writeBasis] runs
    over both the writer's own state and the sampler. *)
Class BasisWriter (W S : Type) : Type := {
  writer_writeBasis : M (W * S) unit
}.

(** ** [class SVDBasisGenerator] (src/SVDBasisGenerator.h) *)

Section Generator.

Context {W S : Type} `{SVDSampler S} `{BasisWriter W S}.

(** The two data members.  [d_basis_writer] is a plain pointer and may
    be null; [d_svdsampler] is the object behind the shared pointer. *)
Record SVDBasisGenerator : Type := {
  d_basis_writer : pointer W;
  d_svdsampler : S
}.

(** [d_svdsampler->f(...)] *)
Definition on_sampler {A : Type} (m : M S A) : M SVDBasisGenerator A :=
  fun g =>
    let (r, s') := m (d_svdsampler g) in
    (r, {| d_basis_writer := d_basis_writer g; d_svdsampler := s' |}).

(** [d_basis_writer->writeBasis()] *)
Definition on_writer_writeBasis : M SVDBasisGenerator unit :=
  fun g =>
    match d_basis_writer g with
    | Some w =>
        let (r, ws) := writer_writeBasis (w, d_svdsampler g) in
        (r, {| d_basis_writer := Some (fst ws); d_svdsampler := snd ws |})
    | None => (Aborted, g)
    end.

Definition getNumBasisTimeIntervals (g : SVDBasisGenerator) : Z :=
  sampler_getNumBasisTimeIntervals (d_svdsampler g).

Definition isNextSample (time : float) : M SVDBasisGenerator bool :=
  CAROM_ASSERT (0 <=? time)%float ;;
  on_sampler (sampler_isNextSample time).

(** [if (d_basis_writer) { d_basis_writer->writeBasis(); }] *)
Definition flush : M SVDBasisGenerator unit :=
  w <- gets d_basis_writer ;;
  when (nonnull w) on_writer_writeBasis.

Definition takeSample (u_in : pointer Vector) (time dt : float)
  : M SVDBasisGenerator unit :=
  CAROM_ASSERT (nonnull u_in) ;;
  CAROM_ASSERT (0 <=? time)%float ;;
  new_interval <- gets (fun g =>
    (0 <? getNumBasisTimeIntervals g)%Z
    && sampler_isNewTimeInterval (d_svdsampler g)) ;;
  when new_interval
    (on_sampler (sampler_resetDt dt) ;;
     flush) ;;
  on_sampler (sampler_takeSample u_in time).

Definition endSamples : M SVDBasisGenerator unit :=
  flush.

Definition computeNextSampleTime (u_in rhs_in : pointer Vector) (time : float)
  : M SVDBasisGenerator float :=
  CAROM_ASSERT (nonnull u_in) ;;
  CAROM_ASSERT (nonnull rhs_in) ;;
  CAROM_ASSERT (0 <=? time)%float ;;
  on_sampler (sampler_computeNextSampleTime u_in rhs_in time).

Definition getBasis : M SVDBasisGenerator (pointer Matrix) :=
  on_sampler sampler_getBasis.

Definition getBasisIntervalStartTime (which_interval : Z)
  : M SVDBasisGenerator float :=
  CAROM_ASSERT (0 <=? which_interval)%Z ;;
  n <- gets getNumBasisTimeIntervals ;;
  CAROM_ASSERT (which_interval <? n)%Z ;;
  on_sampler (sampler_getBasisIntervalStartTime which_interval).

(** What the design document says [takeSample] does at a new interval:
    reset the time step, flush to the writer if there is one, then
    hand the sample to the sampler. *)
Definition takeSample_at_new_interval
  (u_in : pointer Vector) (time dt : float) : M SVDBasisGenerator unit :=
  on_sampler (sampler_resetDt dt) ;;
  flush ;;
  on_sampler (sampler_takeSample u_in time).

End Generator.

Arguments SVDBasisGenerator W S : clear implicits.

(** ** [class IncrementalSVDFastUpdate] (src/IncrementalSVDFastUpdate.h)

    The header declares the constructor, [buildInitialSVD], [computeBasis],
    [addLinearlyDependentSample], [addNewSample] and the member [d_Up], and
    documents their preconditions; the bodies are in an implementation file
    that is not at hand and are modelled from the design document. *)

(** The Basis State of the design document's data model. *)
Record BasisState : Type := {
  dimension : nat;
  rank : nat;
  U : Matrix;
  Sigma : Matrix;
  Up : Matrix;
  num_samples : nat;
  time_interval_start_time : float
}.

(** The engine object: the constructor's parameters, the current Basis
    State, which does not exist before the first sample, and the basis
    last computed by [computeBasis], which does not exist before its first
    call. *)
Record IncrementalSVDFastUpdate : Type := {
  d_dim : Z;
  d_linearity_tol : float;
  d_skip_linearly_dependent : bool;
  d_samples_per_time_interval : Z;
  d_save_state : bool;
  d_restore_state : bool;
  d_debug_algorithm : bool;
  d_basis_state : pointer BasisState;
  d_basis : pointer Matrix
}.

(** Modelled from the spec: the constructor's body is missing.  The header
    documents [dim > 0], [linearity_tol > 0.0] and
    [samples_per_time_interval > 0] as preconditions, the design document
    has them "validated at construction" by fatal assertions.  Restoring a
    saved state is part of persistence and is left out. *)
Definition new_IncrementalSVDFastUpdate
  (dim : Z) (linearity_tol : float) (skip_linearly_dependent : bool)
  (samples_per_time_interval : Z)
  (save_state restore_state debug_algorithm : bool)
  : M unit IncrementalSVDFastUpdate :=
  CAROM_ASSERT (0 <? dim)%Z ;;
  CAROM_ASSERT (0 <? linearity_tol)%float ;;
  CAROM_ASSERT (0 <? samples_per_time_interval)%Z ;;
  ret {| d_dim := dim;
         d_linearity_tol := linearity_tol;
         d_skip_linearly_dependent := skip_linearly_dependent;
         d_samples_per_time_interval := samples_per_time_interval;
         d_save_state := save_state;
         d_restore_state := restore_state;
         d_debug_algorithm := debug_algorithm;
         d_basis_state := null;
         d_basis := null |}.

(** Modelled from the spec: the Basis State [buildInitialSVD] creates.
    "[rank = 1]: [U] set to the normalized sample, [Sigma] set to the
    sample's norm (a 1x1 diagonal), [Up] initialized to a single row,
    [num_samples = 1], [time_interval_start_time = time]".  The single entry
    of [Up] is the scalar 1, the convention under which [U * Sigma * Up^T]
    gives the sample back. *)
Definition initialBasisState (dim : nat) (u : Vector) (time : float)
  : BasisState :=
  let norm_u := norm u in
  {| dimension := dim;
     rank := 1;
     U := build dim 1 (fun i _ => (nth i u 0 / norm_u)%float);
     Sigma := build 1 1 (fun _ _ => norm_u);
     Up := build 1 1 (fun _ _ => 1%float);
     num_samples := 1;
     time_interval_start_time := time |}.

Definition set_basis_state (st : BasisState) (e : IncrementalSVDFastUpdate)
  : IncrementalSVDFastUpdate :=
  {| d_dim := d_dim e;
     d_linearity_tol := d_linearity_tol e;
     d_skip_linearly_dependent := d_skip_linearly_dependent e;
     d_samples_per_time_interval := d_samples_per_time_interval e;
     d_save_state := d_save_state e;
     d_restore_state := d_restore_state e;
     d_debug_algorithm := d_debug_algorithm e;
     d_basis_state := Some st;
     d_basis := d_basis e |}.


(** [*p]: reading through a null pointer stops the program. *)
Definition deref {St A : Type} (p : pointer A) : M St A :=
  fun s =>
    match p with
    | Some a => (Returned a, s)
    | None => (Aborted, s)
    end.

(** Modelled from the spec: [buildInitialSVD(u, time)], with the header's
    preconditions [u != 0] and [time >= 0.0]. *)
Definition buildInitialSVD (u : pointer Vector) (time : float)
  : M IncrementalSVDFastUpdate unit :=
  CAROM_ASSERT (nonnull u) ;;
  CAROM_ASSERT (0 <=? time)%float ;;
  u_vec <- deref u ;;
  dim <- gets d_dim ;;
  modify (set_basis_state (initialBasisState (Z.to_nat dim) u_vec time)).



(** The two outcomes of the linear-dependence test. *)
Inductive branch : Type :=
| NovelSample
| LinearlyDependentSample.

(** Modelled from the spec: step 3 of the per-sample protocol.  The sample
    is novel when its residual norm [k] "exceeds tolerance, or
    [skip_linearly_dependent == false]"; "the dependence threshold is a
    strict inequality against [linearity_tol]". *)
Definition linearDependenceTest
  (linearity_tol : float) (skip_linearly_dependent : bool) (k : float)
  : branch :=
  if (linearity_tol <? k)%float || negb skip_linearly_dependent
  then NovelSample
  else LinearlyDependentSample.

(** Modelled from the spec: steps 1 and 2, [j_proj = U^T u] and
    [u_orth = u - U j_proj]. *)
Definition projection (st : BasisState) (u : Vector) : Vector :=
  transposeMult (U st) u.

Definition residual (st : BasisState) (u : Vector) : Vector :=
  minus u (multVector (U st) (projection st u)).

Definition residualNorm (st : BasisState) (u : Vector) : float :=
  norm (residual st u).

(** Modelled from the spec: "the augmented coefficient matrix combining
    [Sigma], the projection [j_proj], and the new orthogonal direction's
    norm", of size [(rank+1) x (rank+1)]. *)
Definition augmentedNovel (r : nat) (sigma : Matrix) (j_proj : Vector)
  (k : float) : Matrix :=
  build (S r) (S r)
    (fun i j =>
       if i <? r
       then (if j <? r then item sigma i j else nth i j_proj 0%float)
       else (if j <? r then 0%float else k)).

(** Modelled from the spec: "[Sigma] augmented with [j_proj] (no new
    orthogonal direction ...)", of size [rank x (rank+1)]. *)
Definition augmentedDependent (r : nat) (sigma : Matrix) (j_proj : Vector)
  : Matrix :=
  build r (S r)
    (fun i j => if j <? r then item sigma i j else nth i j_proj 0%float).

(** Modelled from the spec: [addNewSample(j, A, sigma)].  "[U_new =
    [U, u_orth/|u_orth|] * A]; [rank] increases by 1"; in [Up] "every
    existing row is extended by appending its new coordinate" (an earlier
    sample has no component along the new direction: 0) "and the whole
    matrix is right-multiplied by [A], then a new row ([[0,...,0,1] * A]) is
    appended". *)
Definition addNewSample (j : Vector) (A sigma : Matrix) (st : BasisState)
  : BasisState :=
  {| dimension := dimension st;
     rank := S (rank st);
     U := mult (appendColumn (U st) j) A;
     Sigma := sigma;
     Up := appendRows
             (mult (appendColumn (Up st) (repeat 0%float (numRows (Up st)))) A)
             (mult (lastUnitRow (rank st)) A);
     num_samples := num_samples st;
     time_interval_start_time := time_interval_start_time st |}.

(** Modelled from the spec: [addLinearlyDependentSample(A, sigma)].  "[U] is
    rotated in place by [A] but its column count ([rank]) is unchanged";
    in [Up] "all existing rows are rotated by [A]; no column is appended". *)
Definition addLinearlyDependentSample (A sigma : Matrix) (st : BasisState)
  : BasisState :=
  {| dimension := dimension st;
     rank := rank st;
     U := mult (U st) A;
     Sigma := sigma;
     Up := mult (Up st) A;
     num_samples := num_samples st;
     time_interval_start_time := time_interval_start_time st |}.

(** Modelled from the spec: "[Up] is extended by one new row (this sample's
    coordinates)".  [addLinearlyDependentSample] receives only [A] and
    [sigma], so the row is appended by its caller. *)
Definition appendUpRow (row : Matrix) (st : BasisState) : BasisState :=
  {| dimension := dimension st;
     rank := rank st;
     U := U st;
     Sigma := Sigma st;
     Up := appendRows (Up st) row;
     num_samples := num_samples st;
     time_interval_start_time := time_interval_start_time st |}.

(** Modelled from the spec: step 4, "[num_samples += 1]". *)
Definition countSample (st : BasisState) : BasisState :=
  {| dimension := dimension st;
     rank := rank st;
     U := U st;
     Sigma := Sigma st;
     Up := Up st;
     num_samples := S (num_samples st);
     time_interval_start_time := time_interval_start_time st |}.

Section Engine.

(** The small dense SVD routine, an external collaborator: from the
    augmented matrix it gives the rotation [A] and the updated singular
    values [sigma']. *)
Variable svd : Matrix -> Matrix * Matrix.

(** The novel branch of step 3. *)
Definition novelUpdate (u : Vector) (st : BasisState) : BasisState :=
  let j_proj := projection st u in
  let u_orth := residual st u in
  let k := norm u_orth in
  let (A, sigma) := svd (augmentedNovel (rank st) (Sigma st) j_proj k) in
  addNewSample (map (fun x => (x / k)%float) u_orth) A sigma st.

(** The dependent branch of step 3; the sample's coordinates against the
    rotated basis are [j_proj * A]. *)
Definition dependentUpdate (u : Vector) (st : BasisState) : BasisState :=
  let j_proj := projection st u in
  let (A, sigma) := svd (augmentedDependent (rank st) (Sigma st) j_proj) in
  appendUpRow (mult (rowMatrix j_proj) A)
    (addLinearlyDependentSample A sigma st).

(** Modelled from the spec: the per-sample update protocol, steps 1 to 4,
    applied to "every subsequent sample [u]". *)
Definition perSampleUpdate
  (linearity_tol : float) (skip_linearly_dependent : bool)
  (u : Vector) (st : BasisState) : BasisState :=
  countSample
    match linearDependenceTest linearity_tol skip_linearly_dependent
            (residualNorm st u) with
    | NovelSample => novelUpdate u st
    | LinearlyDependentSample => dependentUpdate u st
    end.

(** The Basis States of one time interval: the state the first sample
    creates, and every state a further sample of the right length leads
    to. *)
Inductive reachable (dim : nat) (linearity_tol : float) (skip : bool)
  : BasisState -> Prop :=
| reachable_initial (u : Vector) (time : float) :
    length u = dim ->
    (0 <=? time)%float = true ->
    reachable dim linearity_tol skip (initialBasisState dim u time)
| reachable_update (u : Vector) (st : BasisState) :
    length u = dim ->
    reachable dim linearity_tol skip st ->
    reachable dim linearity_tol skip
      (perSampleUpdate linearity_tol skip u st).

(** Feeding a run of samples, oldest first. *)
Definition feed (linearity_tol : float) (skip : bool)
  (us : list Vector) (st : BasisState) : BasisState :=
  fold_left (fun s u => perSampleUpdate linearity_tol skip u s) us st.

(** What is asked of the external routine: for an input with [m] rows both
    factors are [m x m]. *)
Definition squareFactors : Prop :=
  forall Q : Matrix,
    numRows (fst (svd Q)) = numRows Q /\
    numColumns (fst (svd Q)) = numRows Q /\
    numRows (snd (svd Q)) = numRows Q /\
    numColumns (snd (svd Q)) = numRows Q.

End Engine.

(** ** Stand-ins for the collaborators

    Small concrete implementations of the interfaces, used to run the
    wrapper and the engine on concrete inputs. *)

(** A sampler that closes an interval after a fixed number of samples and
    keeps every sample it was given (newest first). *)
Record CountingSampler : Type := {
  cs_samples_per_time_interval : nat;
  cs_num_samples : nat;
  cs_start_times : list float;
  cs_dt : float;
  cs_samples : list Vector
}.

Definition cs_isNewTimeInterval (s : CountingSampler) : bool :=
  (cs_num_samples s =? 0)
  || (cs_samples_per_time_interval s <=? cs_num_samples s).

Definition cs_resetDt (dt : float) : M CountingSampler unit :=
  modify (fun s =>
    {| cs_samples_per_time_interval := cs_samples_per_time_interval s;
       cs_num_samples := cs_num_samples s;
       cs_start_times := cs_start_times s;
       cs_dt := dt;
       cs_samples := cs_samples s |}).

Definition cs_takeSample (u : pointer Vector) (time : float)
  : M CountingSampler unit :=
  u_vec <- deref u ;;
  modify (fun s =>
    if cs_isNewTimeInterval s
    then {| cs_samples_per_time_interval := cs_samples_per_time_interval s;
            cs_num_samples := 1;
            cs_start_times := cs_start_times s ++ [time];
            cs_dt := cs_dt s;
            cs_samples := u_vec :: cs_samples s |}
    else {| cs_samples_per_time_interval := cs_samples_per_time_interval s;
            cs_num_samples := S (cs_num_samples s);
            cs_start_times := cs_start_times s;
            cs_dt := cs_dt s;
            cs_samples := u_vec :: cs_samples s |}).

#[export] Instance CountingSampler_SVDSampler : SVDSampler CountingSampler := {
  sampler_isNextSample := fun _ => ret true;
  sampler_isNewTimeInterval := cs_isNewTimeInterval;
  sampler_resetDt := cs_resetDt;
  sampler_takeSample := cs_takeSample;
  sampler_computeNextSampleTime :=
    fun _ _ time => dt <- gets cs_dt ;; ret (time + dt)%float;
  sampler_getBasis := ret null;
  sampler_getNumBasisTimeIntervals :=
    fun s => Z.of_nat (length (cs_start_times s));
  sampler_getBasisIntervalStartTime :=
    fun i => gets (fun s => nth (Z.to_nat i) (cs_start_times s) 0%float)
}.

(** A writer that notes, at every [writeBasis], how many samples the
    sampler holds at that moment (newest note first). *)
Definition NotingWriter : Type := list nat.

#[export] Instance NotingWriter_BasisWriter
  : BasisWriter NotingWriter CountingSampler := {
  writer_writeBasis :=
    modify (fun ws => (length (cs_samples (snd ws)) :: fst ws, snd ws))
}.

(** A generator before its first sample, with a writer and two samples per
    interval. *)
Definition freshSampler : CountingSampler :=
  {| cs_samples_per_time_interval := 2;
     cs_num_samples := 0;
     cs_start_times := [];
     cs_dt := 0%float;
     cs_samples := [] |}.

Definition freshGenerator : SVDBasisGenerator NotingWriter CountingSampler :=
  {| d_basis_writer := Some [];
     d_svdsampler := freshSampler |}.

(** The same generator after two samples at times 0 and 1: its first
    interval is full. *)
Definition fullSampler : CountingSampler :=
  {| cs_samples_per_time_interval := 2;
     cs_num_samples := 2;
     cs_start_times := [0%float];
     cs_dt := 0%float;
     cs_samples := [[0; 1; 0]%float; [1; 0; 0]%float] |}.

Definition fullGenerator : SVDBasisGenerator NotingWriter CountingSampler :=
  {| d_basis_writer := Some [];
     d_svdsampler := fullSampler |}.

(** The full generator with no writer configured. *)
Definition silentGenerator : SVDBasisGenerator NotingWriter CountingSampler :=
  {| d_basis_writer := null;
     d_svdsampler := fullSampler |}.

(** A stand-in for the dense SVD routine: the identity rotation and the
    leading square block of its input.  It is the singular value
    decomposition of an input whose leading block is diagonal with
    non-negative entries and whose remaining columns are zero. *)
Definition diagonalSVD (Q : Matrix) : Matrix * Matrix :=
  (build (numRows Q) (numRows Q) (fun i j => if i =? j then 1%float else 0%float),
   build (numRows Q) (numRows Q) (item Q)).


(** Scenario A of the design document: first sample [[1,0,0]] at time 0. *)
Definition scenarioA : BasisState :=
  initialBasisState 3 [1; 0; 0]%float 0%float.

(** Scenario B: then the sample [[0,1,0]]. *)
Definition scenarioB : BasisState :=
  perSampleUpdate diagonalSVD 0x1p-20%float true [0; 1; 0]%float scenarioA.

(** Scenario C: then the sample [[1,0,0]] again. *)
Definition scenarioC : BasisState :=
  perSampleUpdate diagonalSVD 0x1p-20%float true [1; 0; 0]%float scenarioB.


(** ** Invariants of a Basis State *)

(** [rank] counts at least one direction and at most one per sample. *)
Definition rankInvariant (st : BasisState) : Prop :=
  1 <= rank st /\ rank st <= num_samples st.

(** The sizes the data model gives the three matrices: [U] is
    [dimension x rank], [Sigma] is [rank x rank], [Up] is
    [num_samples x rank]. *)
Definition shapeInvariant (dim : nat) (st : BasisState) : Prop :=
  dimension st = dim /\
  (numRows (U st) = dim /\ numColumns (U st) = rank st) /\
  (numRows (Sigma st) = rank st /\ numColumns (Sigma st) = rank st) /\
  (numRows (Up st) = num_samples st /\ numColumns (Up st) = rank st).

(** The rank of the current Basis State; 0 before the first sample. *)
Definition currentRank (e : IncrementalSVDFastUpdate) : nat :=
  match d_basis_state e with
  | Some st => rank st
  | None => 0
  end.

(** ** What a member function does to the writer pointer *)

Section WriterPointer.

Context {W S : Type}.

(** The member function leaves [d_basis_writer], pointer and writer
    object, exactly as it was. *)
Definition leavesWriter {A : Type} (m : M (SVDBasisGenerator W S) A) : Prop :=
  forall g : SVDBasisGenerator W S,
    d_basis_writer (snd (m g)) = d_basis_writer g.

(** The member function neither configures nor drops a writer: the pointer
    is null afterwards exactly when it was null before. *)
Definition keepsWriterConfigured {A : Type}
  (m : M (SVDBasisGenerator W S) A) : Prop :=
  forall g : SVDBasisGenerator W S,
    nonnull (d_basis_writer (snd (m g))) = nonnull (d_basis_writer g).

End WriterPointer.

(** A writer whose storage has failed: every [writeBasis] is fatal. *)
Inductive BrokenWriter : Type :=
| brokenWriter.

#[export] Instance BrokenWriter_BasisWriter
  : BasisWriter BrokenWriter CountingSampler := {
  writer_writeBasis := fun ws => (Aborted, ws)
}.

(** The full generator with the broken writer. *)
Definition brokenGenerator : SVDBasisGenerator BrokenWriter CountingSampler :=
  {| d_basis_writer := Some brokenWriter;
     d_svdsampler := fullSampler |}.

(** ** The numerical checks of the design document *)

(** [|x - y| <= tol] on doubles; false as soon as a NaN is involved. *)
Definition withinTolerance (tol x y : float) : bool :=
  (abs (x - y) <=? tol)%float.

(** [A^T * A] *)
Definition gram (A : Matrix) : Matrix :=
  build (numColumns A) (numColumns A)
    (fun i j =>
       sum (map (fun k => (item A k i * item A k j)%float)
              (seq 0 (numRows A)))).

(** The entries of the identity matrix. *)
Definition identityItem (i j : nat) : float :=
  if i =? j then 1%float else 0%float.

(** "[U^T U] equals the identity matrix of size [rank] within a small
    numerical tolerance": every entry of [U^T U], for row and column below
    [rank], is within [tol] of the identity's. *)
Definition orthonormalWithin (tol : float) (st : BasisState) : bool :=
  forallb
    (fun i =>
       forallb
         (fun j =>
            withinTolerance tol (item (gram (U st)) i j) (identityItem i j))
         (seq 0 (rank st)))
    (seq 0 (rank st)).

(** The double nearest to the tolerance 1e-10 named by the design
    document. *)
Definition orthonormalityTolerance : float := 0x1.b7cdfd9d7bdbbp-34%float.

(** The row of [Up] that belongs to sample number [i]. *)
Definition upRow (st : BasisState) (i : nat) : Vector :=
  map (fun j => item (Up st) i j) (seq 0 (numColumns (Up st))).

(** "[U * Sigma * (row of Up for that sample)^T]" *)
Definition reconstruct (st : BasisState) (i : nat) : Vector :=
  multVector (mult (U st) (Sigma st)) (upRow st i).








Section SampleTracking.

Variable svd : Matrix -> Matrix * Matrix.


End SampleTracking.

(* ================================================================== *)
(** * Part II: properties *)
(* ================================================================== *)

Unset Implicit Arguments.

(** ** Comparisons of doubles *)

Lemma SFcompare_swap (x y : spec_float) (c : comparison) :
  SFcompare x y = Some c -> SFcompare y x = Some (CompOpp c).
Proof.
  destruct x as [sx | sx | | sx mx ex], y as [sy | sy | | sy my ey];
    simpl; try discriminate;
    try (intros E; injection E as <-; reflexivity);
    try (destruct sx; intros E; injection E as <-; reflexivity);
    try (destruct sy; intros E; injection E as <-; reflexivity).
  - destruct sx, sy; intros E; injection E as <-; reflexivity.
  - intros E; injection E as <-. f_equal.
    pose proof (Pos.compare_cont_antisym mx my Eq) as P. simpl in P.
    destruct sx, sy; simpl; try reflexivity;
      rewrite (Z.compare_antisym ex ey);
      destruct (ex ?= ey)%Z; simpl; try reflexivity.
    + apply f_equal. symmetry. exact P.
    + symmetry. exact P.
Qed.

Lemma leb_true_ltb_false (x y : float) :
  (x <=? y)%float = true -> (y <? x)%float = false.
Proof.
  rewrite leb_spec, ltb_spec. unfold SFleb, SFltb.
  destruct (SFcompare (Prim2SF x) (Prim2SF y)) as [c |] eqn:E; try discriminate.
  rewrite (SFcompare_swap _ _ _ E).
  destruct c; simpl; try reflexivity; discriminate.
Qed.

Lemma ltb_true_leb_false (x y : float) :
  (x <? y)%float = true -> (y <=? x)%float = false.
Proof.
  rewrite leb_spec, ltb_spec. unfold SFleb, SFltb.
  destruct (SFcompare (Prim2SF x) (Prim2SF y)) as [c |] eqn:E; try discriminate.
  rewrite (SFcompare_swap _ _ _ E).
  destruct c; simpl; try reflexivity; discriminate.
Qed.

Lemma eqb_true_ltb_false (x y : float) :
  (x =? y)%float = true -> (y <? x)%float = false.
Proof.
  rewrite eqb_spec, ltb_spec. unfold SFeqb, SFltb.
  destruct (SFcompare (Prim2SF x) (Prim2SF y)) as [c |] eqn:E; try discriminate.
  rewrite (SFcompare_swap _ _ _ E).
  destruct c; simpl; try reflexivity; discriminate.
Qed.

Lemma ltb_irrefl (x : float) : (x <? x)%float = false.
Proof.
  destruct (x <? x)%float eqn:E; try reflexivity.
  pose proof (ltb_true_leb_false _ _ E) as L.
  rewrite leb_spec in L. rewrite ltb_spec in E. unfold SFleb, SFltb in *.
  destruct (SFcompare (Prim2SF x) (Prim2SF x)) as [[ | | ] |]; discriminate.
Qed.

(** ** Dense matrices *)

Lemma length_rows (f : nat -> nat -> float) (cols : nat) (l : list nat) :
  length (flat_map (fun i => map (f i) (seq 0 cols)) l) = length l * cols.
Proof.
  induction l as [| i l IH]; simpl.
  - reflexivity.
  - rewrite length_app, length_map, length_seq, IH. reflexivity.
Qed.

Lemma wellFormed_build (rows cols : nat) (f : nat -> nat -> float) :
  wellFormed (build rows cols f).
Proof.
  unfold wellFormed, build; simpl.
  rewrite length_rows, length_seq. reflexivity.
Qed.





(** ** The member-function monad *)

Lemma bind_assoc {St A B C : Type}
  (m : M St A) (f : A -> M St B) (k : B -> M St C) (s : St) :
  bind (bind m f) k s = bind m (fun a => bind (f a) k) s.
Proof.
  unfold bind. destruct (m s) as [[a |] s']; reflexivity.
Qed.

Lemma CAROM_ASSERT_holds {St A : Type} (k : M St A) (s : St) :
  bind (CAROM_ASSERT true) (fun _ => k) s = k s.
Proof. reflexivity. Qed.

(** ** [SVDBasisGenerator] *)

Section GeneratorProperties.

Context {W S : Type} `{SVDSampler S} `{BasisWriter W S}.

Lemma flush_without_writer (g : SVDBasisGenerator W S) :
  d_basis_writer g = null -> flush g = (Returned tt, g).
Proof.
  intros Hw. unfold flush, bind, gets, when. rewrite Hw. reflexivity.
Qed.

Lemma on_sampler_keeps_writer {A : Type} (m : M S A) (g : SVDBasisGenerator W S) :
  d_basis_writer (snd (on_sampler m g)) = d_basis_writer g.
Proof.
  unfold on_sampler. destruct (m (d_svdsampler g)) as [r s']. reflexivity.
Qed.

(** The guard of [takeSample], once both assertions hold. *)
Lemma takeSample_guarded (g : SVDBasisGenerator W S)
  (u : pointer Vector) (time dt : float) :
  nonnull u = true ->
  (0 <=? time)%float = true ->
  takeSample u time dt g =
  (if (0 <? getNumBasisTimeIntervals g)%Z
      && sampler_isNewTimeInterval (d_svdsampler g)
   then takeSample_at_new_interval u time dt g
   else on_sampler (sampler_takeSample u time) g).
Proof.
  intros Hu Ht. unfold takeSample. rewrite Hu, Ht.
  rewrite !CAROM_ASSERT_holds.
  unfold bind at 1, gets at 1.
  destruct ((0 <? getNumBasisTimeIntervals g)%Z
            && sampler_isNewTimeInterval (d_svdsampler g)).
  - unfold when. rewrite bind_assoc. reflexivity.
  - reflexivity.
Qed.

(** C10: without a basis writer [endSamples] returns at once and leaves the
    whole generator (writer pointer and sampler) as it was; and the flush
    that [takeSample] runs after [resetDt] does nothing either. *)
Theorem endSamples_without_writer (g : SVDBasisGenerator W S) (dt : float) :
  d_basis_writer g = null ->
  endSamples g = (Returned tt, g) /\
  bind (on_sampler (sampler_resetDt dt)) (fun _ => flush) g
  = on_sampler (sampler_resetDt dt) g.
Proof.
  intros Hw. split.
  - apply flush_without_writer, Hw.
  - unfold bind.
    pose proof (on_sampler_keeps_writer (sampler_resetDt dt) g) as K.
    destruct (on_sampler (sampler_resetDt dt) g) as [[[] |] g'];
      simpl in K; [| reflexivity].
    apply flush_without_writer. rewrite K. exact Hw.
Qed.

(** C7 (amended): when the sampler reports a new time interval and at least
    one basis time interval already exists, [takeSample] resets [dt],
    flushes to the writer if one is configured, and only then hands the
    sample to the sampler; when no interval exists yet, or the sampler
    reports no new interval, it hands the sample over directly. *)
Theorem takeSample_new_interval (g : SVDBasisGenerator W S)
  (u : pointer Vector) (time dt : float) :
  nonnull u = true ->
  (0 <=? time)%float = true ->
  ((0 < getNumBasisTimeIntervals g)%Z ->
   sampler_isNewTimeInterval (d_svdsampler g) = true ->
   takeSample u time dt g = takeSample_at_new_interval u time dt g)
  /\
  ((getNumBasisTimeIntervals g <= 0)%Z
   \/ sampler_isNewTimeInterval (d_svdsampler g) = false ->
   takeSample u time dt g = on_sampler (sampler_takeSample u time) g).
Proof.
  intros Hu Ht. rewrite (takeSample_guarded g u time dt Hu Ht). split.
  - intros Hn Hnew. rewrite Hnew.
    apply Z.ltb_lt in Hn. rewrite Hn. reflexivity.
  - intros [Hn | Hnew].
    + apply Z.ltb_ge in Hn. rewrite Hn. reflexivity.
    + rewrite Hnew, andb_false_r. reflexivity.
Qed.

(** The three ways a call of the wrapper can break a documented
    precondition. *)
Lemma takeSample_null (g : SVDBasisGenerator W S) (time dt : float) :
  takeSample null time dt g = (Aborted, g).
Proof. reflexivity. Qed.

Lemma takeSample_negative_time (g : SVDBasisGenerator W S)
  (u : pointer Vector) (time dt : float) :
  (time <? 0)%float = true -> takeSample u time dt g = (Aborted, g).
Proof.
  intros Ht. apply ltb_true_leb_false in Ht.
  unfold takeSample. rewrite Ht.
  destruct u; reflexivity.
Qed.

Lemma getBasisIntervalStartTime_out_of_range (g : SVDBasisGenerator W S)
  (which_interval : Z) :
  (which_interval < 0 \/ getNumBasisTimeIntervals g <= which_interval)%Z ->
  getBasisIntervalStartTime which_interval g = (Aborted, g).
Proof.
  intros Hw. unfold getBasisIntervalStartTime.
  destruct (0 <=? which_interval)%Z eqn:E0.
  - rewrite CAROM_ASSERT_holds. unfold bind at 1, gets at 1.
    assert (E1 : (which_interval <? getNumBasisTimeIntervals g)%Z = false).
    { apply Z.ltb_ge. apply Z.leb_le in E0. lia. }
    rewrite E1. reflexivity.
  - reflexivity.
Qed.

End GeneratorProperties.

(** ** The constructor *)

Lemma new_IncrementalSVDFastUpdate_rejects
  (dim : Z) (linearity_tol : float) (skip : bool)
  (samples_per_time_interval : Z) (save_state restore_state debug : bool) :
  (dim <= 0)%Z \/ (linearity_tol <=? 0)%float = true
  \/ (samples_per_time_interval <= 0)%Z ->
  new_IncrementalSVDFastUpdate dim linearity_tol skip
    samples_per_time_interval save_state restore_state debug tt
  = (Aborted, tt).
Proof.
  intros Hbad. unfold new_IncrementalSVDFastUpdate.
  destruct (0 <? dim)%Z eqn:Ed; [| reflexivity].
  rewrite CAROM_ASSERT_holds.
  destruct (0 <? linearity_tol)%float eqn:Et; [| reflexivity].
  rewrite CAROM_ASSERT_holds.
  destruct (0 <? samples_per_time_interval)%Z eqn:Es; [| reflexivity].
  exfalso. apply Z.ltb_lt in Ed, Es.
  destruct Hbad as [Hd | [Ht | Hs]]; try lia.
  apply leb_true_ltb_false in Ht. congruence.
Qed.

(** C9: a call that breaks a documented precondition is stopped by the
    assertion and leaves the object as it was: [takeSample] with a null
    sample or a negative time, [getBasisIntervalStartTime] with an index
    outside [0, getNumBasisTimeIntervals()), and the construction of the
    engine with a non-positive dimension, tolerance or
    samples-per-interval. *)
Theorem precondition_violation_is_fatal
  {W S : Type} `{SVDSampler S} `{BasisWriter W S}
  (g : SVDBasisGenerator W S) (u : pointer Vector) (time dt : float)
  (which_interval : Z)
  (dim : Z) (linearity_tol : float) (skip : bool)
  (samples_per_time_interval : Z) (save_state restore_state debug : bool) :
  (u = null \/ (time <? 0)%float = true ->
   takeSample u time dt g = (Aborted, g))
  /\
  ((which_interval < 0 \/ getNumBasisTimeIntervals g <= which_interval)%Z ->
   getBasisIntervalStartTime which_interval g = (Aborted, g))
  /\
  ((dim <= 0)%Z \/ (linearity_tol <=? 0)%float = true
   \/ (samples_per_time_interval <= 0)%Z ->
   new_IncrementalSVDFastUpdate dim linearity_tol skip
     samples_per_time_interval save_state restore_state debug tt
   = (Aborted, tt)).
Proof.
  split; [| split].
  - intros [-> | Ht].
    + apply takeSample_null.
    + apply takeSample_negative_time, Ht.
  - apply getBasisIntervalStartTime_out_of_range.
  - apply new_IncrementalSVDFastUpdate_rejects.
Qed.

(** ** The first sample *)



(** ** The per-sample protocol *)

Section EngineProperties.

Variable svd : Matrix -> Matrix * Matrix.

Lemma novelUpdate_addNewSample (u : Vector) (st : BasisState) :
  exists (j : Vector) (A sigma : Matrix),
    novelUpdate svd u st = addNewSample j A sigma st.
Proof.
  unfold novelUpdate.
  destruct (svd _) as [A sigma].
  eexists; eexists; eexists; reflexivity.
Qed.

Lemma dependentUpdate_addLinearlyDependentSample (u : Vector) (st : BasisState) :
  exists (row A sigma : Matrix),
    dependentUpdate svd u st
    = appendUpRow row (addLinearlyDependentSample A sigma st).
Proof.
  unfold dependentUpdate.
  destruct (svd _) as [A sigma].
  eexists; eexists; eexists; reflexivity.
Qed.

Lemma rank_novelUpdate (u : Vector) (st : BasisState) :
  rank (novelUpdate svd u st) = S (rank st).
Proof.
  destruct (novelUpdate_addNewSample u st) as (j & A & sigma & ->).
  reflexivity.
Qed.

Lemma rank_dependentUpdate (u : Vector) (st : BasisState) :
  rank (dependentUpdate svd u st) = rank st.
Proof.
  destruct (dependentUpdate_addLinearlyDependentSample u st)
    as (row & A & sigma & ->).
  reflexivity.
Qed.

Lemma linearDependenceTest_novel (tol : float) (skip : bool) (k : float) :
  (tol <? k)%float = true \/ skip = false ->
  linearDependenceTest tol skip k = NovelSample.
Proof.
  unfold linearDependenceTest. intros [-> | ->].
  - reflexivity.
  - rewrite orb_true_r. reflexivity.
Qed.

Lemma linearDependenceTest_dependent (tol : float) (k : float) :
  (k <=? tol)%float = true ->
  linearDependenceTest tol true k = LinearlyDependentSample.
Proof.
  unfold linearDependenceTest. intros Hk.
  rewrite (leb_true_ltb_false _ _ Hk). reflexivity.
Qed.

Lemma linearDependenceTest_tie (tol : float) (k : float) :
  k = tol \/ (k =? tol)%float = true ->
  linearDependenceTest tol true k = LinearlyDependentSample.
Proof.
  unfold linearDependenceTest. intros [-> | Hk].
  - rewrite ltb_irrefl. reflexivity.
  - rewrite (eqb_true_ltb_false _ _ Hk). reflexivity.
Qed.

(** C1: a sample whose residual norm is strictly above [linearity_tol], or
    any sample when [skip_linearly_dependent] is false, goes through
    [addNewSample] and [rank] grows by exactly 1; a sample whose residual
    norm is at or below [linearity_tol], with [skip_linearly_dependent]
    true, goes through [addLinearlyDependentSample] and [rank] stays; a
    residual norm equal to the tolerance (the same double, or equal as
    doubles compare) is on the dependent side. *)
Theorem dependence_threshold_boundary
  (tol : float) (skip : bool) (u : Vector) (st : BasisState) :
  ((tol <? residualNorm st u)%float = true \/ skip = false ->
   linearDependenceTest tol skip (residualNorm st u) = NovelSample /\
   (exists (j : Vector) (A sigma : Matrix),
      perSampleUpdate svd tol skip u st
      = countSample (addNewSample j A sigma st)) /\
   rank (perSampleUpdate svd tol skip u st) = S (rank st))
  /\
  ((residualNorm st u <=? tol)%float = true /\ skip = true ->
   linearDependenceTest tol skip (residualNorm st u)
   = LinearlyDependentSample /\
   (exists (row A sigma : Matrix),
      perSampleUpdate svd tol skip u st
      = countSample (appendUpRow row (addLinearlyDependentSample A sigma st))) /\
   rank (perSampleUpdate svd tol skip u st) = rank st)
  /\
  ((residualNorm st u = tol \/ (residualNorm st u =? tol)%float = true)
   /\ skip = true ->
   linearDependenceTest tol skip (residualNorm st u)
   = LinearlyDependentSample /\
   rank (perSampleUpdate svd tol skip u st) = rank st).
Proof.
  split; [| split].
  - intros Hnovel.
    pose proof (linearDependenceTest_novel tol skip _ Hnovel) as T.
    unfold perSampleUpdate. rewrite T. split; [reflexivity | split].
    + destruct (novelUpdate_addNewSample u st) as (j & A & sigma & ->).
      exists j, A, sigma. reflexivity.
    + simpl. apply rank_novelUpdate.
  - intros [Hk ->].
    pose proof (linearDependenceTest_dependent tol _ Hk) as T.
    unfold perSampleUpdate. rewrite T. split; [reflexivity | split].
    + destruct (dependentUpdate_addLinearlyDependentSample u st)
        as (row & A & sigma & ->).
      exists row, A, sigma. reflexivity.
    + simpl. apply rank_dependentUpdate.
  - intros [Hk ->].
    pose proof (linearDependenceTest_tie tol _ Hk) as T.
    unfold perSampleUpdate. rewrite T. split; [reflexivity |].
    simpl. apply rank_dependentUpdate.
Qed.

End EngineProperties.

(** ** Invariants along a time interval *)

Section EngineInvariants.

Variable svd : Matrix -> Matrix * Matrix.
Variable dim : nat.
Variable tol : float.
Variable skip : bool.

Lemma rank_perSampleUpdate (u : Vector) (st : BasisState) :
  rank (perSampleUpdate svd tol skip u st) = rank st
  \/ rank (perSampleUpdate svd tol skip u st) = S (rank st).
Proof.
  unfold perSampleUpdate.
  destruct (linearDependenceTest tol skip (residualNorm st u)); simpl.
  - right. apply rank_novelUpdate.
  - left. apply rank_dependentUpdate.
Qed.

Lemma num_samples_perSampleUpdate (u : Vector) (st : BasisState) :
  num_samples (perSampleUpdate svd tol skip u st) = S (num_samples st).
Proof.
  unfold perSampleUpdate.
  destruct (linearDependenceTest tol skip (residualNorm st u)); simpl.
  - destruct (novelUpdate_addNewSample svd u st) as (j & A & sigma & ->).
    reflexivity.
  - destruct (dependentUpdate_addLinearlyDependentSample svd u st)
      as (row & A & sigma & ->).
    reflexivity.
Qed.

Lemma rank_feed (us : list Vector) :
  forall st : BasisState,
    rank st <= rank (feed svd tol skip us st)
    /\ rank (feed svd tol skip us st) <= rank st + length us.
Proof.
  induction us as [| u us IH]; intros st; simpl.
  - lia.
  - destruct (IH (perSampleUpdate svd tol skip u st)) as [Hlo Hhi].
    unfold feed in Hlo, Hhi.
    destruct (rank_perSampleUpdate u st) as [E | E]; rewrite E in Hlo, Hhi;
      unfold feed; simpl; lia.
Qed.

Lemma reachable_rankInvariant (st : BasisState) :
  reachable svd dim tol skip st -> rankInvariant st.
Proof.
  unfold rankInvariant.
  induction 1 as [u time Hlen Ht | u st Hlen Hst [IH1 IH2]].
  - simpl. lia.
  - rewrite num_samples_perSampleUpdate.
    destruct (rank_perSampleUpdate u st) as [E | E]; rewrite E; lia.
Qed.

Lemma buildInitialSVD_rank (e e' : IncrementalSVDFastUpdate)
  (u : pointer Vector) (time : float) :
  d_basis_state e = null ->
  buildInitialSVD u time e = (Returned tt, e') ->
  currentRank e' = S (currentRank e).
Proof.
  intros Hnone. unfold currentRank at 2. rewrite Hnone.
  unfold buildInitialSVD.
  destruct u as [v |]; [| discriminate].
  destruct (0 <=? time)%float; [| discriminate].
  simpl. intros E. injection E as <-. reflexivity.
Qed.

(** C4: within a time interval [rank] never decreases; [buildInitialSVD]
    takes it from 0 to 1, [addNewSample] adds 1, [addLinearlyDependentSample]
    leaves it, so each sample changes it by 0 or 1; and [rank <=
    num_samples] in every reachable Basis State. *)
Theorem rank_monotonicity :
  (forall (e e' : IncrementalSVDFastUpdate) (u : pointer Vector) (time : float),
     d_basis_state e = null ->
     buildInitialSVD u time e = (Returned tt, e') ->
     currentRank e' = S (currentRank e))
  /\
  (forall (j : Vector) (A sigma : Matrix) (st : BasisState),
     rank (addNewSample j A sigma st) = S (rank st))
  /\
  (forall (A sigma : Matrix) (st : BasisState),
     rank (addLinearlyDependentSample A sigma st) = rank st)
  /\
  (forall (u : Vector) (st : BasisState),
     rank (perSampleUpdate svd tol skip u st) = rank st
     \/ rank (perSampleUpdate svd tol skip u st) = S (rank st))
  /\
  (forall (us : list Vector) (st : BasisState),
     rank st <= rank (feed svd tol skip us st))
  /\
  (forall st : BasisState,
     reachable svd dim tol skip st -> rank st <= num_samples st).
Proof.
  repeat split.
  - apply buildInitialSVD_rank.
  - apply rank_perSampleUpdate.
  - intros us st. apply (rank_feed us st).
  - intros st Hst. apply (reachable_rankInvariant st Hst).
Qed.

Hypothesis svd_square : squareFactors svd.

Lemma shapeInvariant_initial (u : Vector) (time : float) :
  shapeInvariant dim (initialBasisState dim u time).
Proof. repeat split. Qed.

Lemma shapeInvariant_perSampleUpdate (u : Vector) (st : BasisState) :
  shapeInvariant dim st ->
  shapeInvariant dim (perSampleUpdate svd tol skip u st).
Proof.
  intros (Hd & (Hur & Huc) & (Hsr & Hsc) & (Hpr & Hpc)).
  unfold perSampleUpdate.
  destruct (linearDependenceTest tol skip (residualNorm st u)).
  - unfold novelUpdate.
    match goal with |- context [svd ?Q] =>
      destruct (svd_square Q) as (Ar & Ac & Sr & Sc);
      destruct (svd Q) as [A sigma]
    end.
    simpl in Ar, Ac, Sr, Sc. unfold shapeInvariant; simpl.
    repeat split; lia.
  - unfold dependentUpdate.
    match goal with |- context [svd ?Q] =>
      destruct (svd_square Q) as (Ar & Ac & Sr & Sc);
      destruct (svd Q) as [A sigma]
    end.
    simpl in Ar, Ac, Sr, Sc. unfold shapeInvariant; simpl.
    repeat split; lia.
Qed.

Lemma reachable_shapeInvariant (st : BasisState) :
  reachable svd dim tol skip st -> shapeInvariant dim st.
Proof.
  induction 1 as [u time Hlen Ht | u st Hlen Hst IH].
  - apply shapeInvariant_initial.
  - apply shapeInvariant_perSampleUpdate, IH.
Qed.

Lemma reachable_Up_wellFormed (st : BasisState) :
  reachable svd dim tol skip st -> wellFormed (Up st).
Proof.
  destruct 1 as [u time Hlen Ht | u st Hlen Hst].
  - apply wellFormed_build.
  - unfold perSampleUpdate.
    destruct (linearDependenceTest tol skip (residualNorm st u)); simpl.
    + destruct (novelUpdate_addNewSample svd u st) as (j & A & sigma & ->).
      apply wellFormed_build.
    + destruct (dependentUpdate_addLinearlyDependentSample svd u st)
        as (row & A & sigma & ->).
      apply wellFormed_build.
Qed.

(** C5: in every reachable Basis State [Up] has exactly [num_samples] rows
    and exactly [rank] columns (and stores that many entries), provided the
    external SVD routine returns factors of the size of its input. *)
Theorem Up_shape (st : BasisState) :
  reachable svd dim tol skip st ->
  numRows (Up st) = num_samples st
  /\ numColumns (Up st) = rank st
  /\ length (d_mat (Up st)) = num_samples st * rank st.
Proof.
  intros Hst.
  destruct (reachable_shapeInvariant st Hst) as (_ & _ & _ & Hr & Hc).
  pose proof (reachable_Up_wellFormed st Hst) as Hwf.
  unfold wellFormed in Hwf. rewrite Hr, Hc in Hwf.
  auto.
Qed.

End EngineInvariants.

(** ** Computing the basis *)




(** ** Concrete runs *)

Lemma diagonalSVD_square : squareFactors diagonalSVD.
Proof. intros Q. repeat split. Qed.

Lemma scenarioA_reachable :
  reachable diagonalSVD 3 0x1p-20%float true scenarioA.
Proof. apply reachable_initial; reflexivity. Qed.

Lemma scenarioB_reachable :
  reachable diagonalSVD 3 0x1p-20%float true scenarioB.
Proof. apply reachable_update; [reflexivity | apply scenarioA_reachable]. Qed.

Lemma scenarioC_reachable :
  reachable diagonalSVD 3 0x1p-20%float true scenarioC.
Proof. apply reachable_update; [reflexivity | apply scenarioB_reachable]. Qed.

(** Scenario B: the orthogonal second sample has residual norm 1, takes the
    novel branch and gives [rank = 2] with singular values 1 and 1. *)
Example scenarioB_run :
  residualNorm scenarioA [0; 1; 0]%float = 1%float /\
  rank scenarioB = 2 /\
  Sigma scenarioB
  = {| numRows := 2; numColumns := 2; d_mat := [1; 0; 0; 1]%float |}.
Proof. vm_compute. repeat split. Qed.

(** Scenario C: the repeated third sample has residual norm 0; [rank] stays
    2, [num_samples] becomes 3 and [Up] has a third row. *)
Example scenarioC_run :
  residualNorm scenarioB [1; 0; 0]%float = 0%float /\
  rank scenarioC = 2 /\
  num_samples scenarioC = 3 /\
  numRows (Up scenarioC) = 3.
Proof. vm_compute. repeat split. Qed.

(** Scenario D: with [skip_linearly_dependent = false] the repeated sample
    takes the novel branch and [rank] becomes 3. *)
Example scenarioD_run :
  rank (perSampleUpdate diagonalSVD 0x1p-20%float false [1; 0; 0]%float scenarioB)
  = 3.
Proof. vm_compute. reflexivity. Qed.

(** Witness of C1: Scenario B takes the novel branch, Scenario C the
    dependent one, and with the tolerance 1 the second sample of Scenario B
    sits exactly on the threshold. *)
Lemma dependence_threshold_boundary_witness :
  rank (perSampleUpdate diagonalSVD 0x1p-20%float true [0; 1; 0]%float scenarioA)
  = 2
  /\ rank (perSampleUpdate diagonalSVD 0x1p-20%float true [1; 0; 0]%float scenarioB)
     = 2
  /\ linearDependenceTest 1%float true (residualNorm scenarioA [0; 1; 0]%float)
     = LinearlyDependentSample.
Proof.
  destruct (dependence_threshold_boundary diagonalSVD 0x1p-20%float true
              [0; 1; 0]%float scenarioA) as (H1 & _ & _).
  destruct (dependence_threshold_boundary diagonalSVD 0x1p-20%float true
              [1; 0; 0]%float scenarioB) as (_ & H2 & _).
  destruct (dependence_threshold_boundary diagonalSVD 1%float true
              [0; 1; 0]%float scenarioA) as (_ & _ & H3).
  split; [| split].
  - destruct H1 as (_ & _ & R); [left; vm_compute; reflexivity | exact R].
  - destruct H2 as (_ & _ & R); [split; vm_compute; reflexivity | exact R].
  - destruct H3 as (T & _); [split; [left |]; vm_compute; reflexivity | exact T].
Defined.


(** Witness of C4: in Scenario C the rank 2 is at most the 3 samples. *)
Lemma rank_monotonicity_witness :
  rank scenarioC <= num_samples scenarioC.
Proof.
  destruct (rank_monotonicity diagonalSVD 3 0x1p-20%float true)
    as (_ & _ & _ & _ & _ & H).
  apply H, scenarioC_reachable.
Defined.

(** Witness of C5: in Scenario C [Up] is 3 x 2. *)
Lemma Up_shape_witness :
  numRows (Up scenarioC) = 3
  /\ numColumns (Up scenarioC) = 2
  /\ length (d_mat (Up scenarioC)) = 6.
Proof.
  exact (Up_shape diagonalSVD 3 0x1p-20%float true diagonalSVD_square
           scenarioC scenarioC_reachable).
Defined.

(** Counterexample to C7 as stated: before the first sample the sampler
    reports a new time interval, yet [takeSample] neither resets [dt] nor
    writes the basis, because no basis time interval exists yet. *)
Lemma takeSample_first_sample_no_flush :
  sampler_isNewTimeInterval (d_svdsampler freshGenerator) = true
  /\ getNumBasisTimeIntervals freshGenerator = 0%Z
  /\ takeSample (Some [1; 0; 0]%float) 0%float 0.5%float freshGenerator
     = (Returned tt,
        {| d_basis_writer := Some [];
           d_svdsampler :=
             {| cs_samples_per_time_interval := 2;
                cs_num_samples := 1;
                cs_start_times := [0%float];
                cs_dt := 0%float;
                cs_samples := [[1; 0; 0]%float] |} |})
  /\ takeSample_at_new_interval (Some [1; 0; 0]%float) 0%float 0.5%float
       freshGenerator
     = (Returned tt,
        {| d_basis_writer := Some [0];
           d_svdsampler :=
             {| cs_samples_per_time_interval := 2;
                cs_num_samples := 1;
                cs_start_times := [0%float];
                cs_dt := 0.5%float;
                cs_samples := [[1; 0; 0]%float] |} |})
  /\ takeSample (Some [1; 0; 0]%float) 0%float 0.5%float freshGenerator
     <> takeSample_at_new_interval (Some [1; 0; 0]%float) 0%float 0.5%float
          freshGenerator.
Proof.
  repeat split; try reflexivity.
  vm_compute. discriminate.
Qed.

(** Witness of C7 (amended): the third sample arrives when the first
    interval is full; the writer notes the two samples held before the new
    one is taken. *)
Lemma takeSample_new_interval_witness :
  takeSample (Some [1; 0; 0]%float) 2%float 0.5%float fullGenerator
  = takeSample_at_new_interval (Some [1; 0; 0]%float) 2%float 0.5%float
      fullGenerator
  /\ takeSample (Some [1; 0; 0]%float) 0%float 0.5%float freshGenerator
     = on_sampler (sampler_takeSample (Some [1; 0; 0]%float) 0%float)
         freshGenerator.
Proof.
  destruct (takeSample_new_interval fullGenerator (Some [1; 0; 0]%float)
              2%float 0.5%float eq_refl eq_refl) as (H1 & _).
  destruct (takeSample_new_interval freshGenerator (Some [1; 0; 0]%float)
              0%float 0.5%float eq_refl eq_refl) as (_ & H2).
  split.
  - apply H1; reflexivity.
  - apply H2. left. vm_compute. discriminate.
Defined.

(** The run behind that witness: [dt] reset, one note by the writer, taken
    while the sampler still held two samples, then the sample. *)
Example full_interval_run :
  takeSample (Some [1; 0; 0]%float) 2%float 0.5%float fullGenerator
  = (Returned tt,
     {| d_basis_writer := Some [2];
        d_svdsampler :=
          {| cs_samples_per_time_interval := 2;
             cs_num_samples := 1;
             cs_start_times := [0; 2]%float;
             cs_dt := 0.5%float;
             cs_samples :=
               [[1; 0; 0]; [0; 1; 0]; [1; 0; 0]]%float |} |}).
Proof. reflexivity. Qed.



(** Witness of C9: a null sample, a negative time, an interval index past
    the end, and a zero dimension. *)
Lemma precondition_violation_is_fatal_witness :
  takeSample null 2%float 0.5%float fullGenerator = (Aborted, fullGenerator)
  /\ takeSample (Some [1; 0; 0]%float) (-1)%float 0.5%float fullGenerator
     = (Aborted, fullGenerator)
  /\ getBasisIntervalStartTime 1 fullGenerator = (Aborted, fullGenerator)
  /\ new_IncrementalSVDFastUpdate 0 0x1p-20%float true 10 false false false tt
     = (Aborted, tt).
Proof.
  destruct (precondition_violation_is_fatal fullGenerator null 2%float
              0.5%float 1%Z 0%Z 0x1p-20%float true 10%Z false false false)
    as (H1 & H2 & H3).
  destruct (precondition_violation_is_fatal fullGenerator
              (Some [1; 0; 0]%float) (-1)%float
              0.5%float 1%Z 0%Z 0x1p-20%float true 10%Z false false false)
    as (H4 & _ & _).
  split; [| split; [| split]].
  - apply H1. left. reflexivity.
  - apply H4. right. reflexivity.
  - apply H2. right. vm_compute. discriminate.
  - apply H3. left. lia.
Defined.

(** Witness of C10: the generator without a writer. *)
Lemma endSamples_without_writer_witness :
  endSamples silentGenerator = (Returned tt, silentGenerator).
Proof.
  destruct (endSamples_without_writer silentGenerator 0.5%float eq_refl)
    as (H & _).
  exact H.
Defined.

(** ** Further properties of [SVDBasisGenerator] *)

(** A double that does not compare equal to itself is a NaN, and a NaN
    is not [>= 0]. *)
Lemma nan_not_nonnegative (x : float) :
  (x =? x)%float = false -> (0 <=? x)%float = false.
Proof.
  rewrite eqb_spec, leb_spec. unfold SFeqb, SFleb.
  destruct (Prim2SF x) as [s | s | | s m e]; simpl.
  - discriminate.
  - destruct s; discriminate.
  - intros _. destruct (Prim2SF 0); reflexivity.
  - destruct s; rewrite Z.compare_refl, Pos.compare_cont_refl; discriminate.
Qed.

Section GeneratorFurther.

Context {W S : Type} `{SVDSampler S} `{BasisWriter W S}.

Lemma isNextSample_rejects (g : SVDBasisGenerator W S) (time : float) :
  (0 <=? time)%float = false -> isNextSample time g = (Aborted, g).
Proof.
  intros Ht. unfold isNextSample. rewrite Ht. reflexivity.
Qed.

Lemma takeSample_rejects_time (g : SVDBasisGenerator W S)
  (u : pointer Vector) (time dt : float) :
  (0 <=? time)%float = false -> takeSample u time dt g = (Aborted, g).
Proof.
  intros Ht. unfold takeSample. rewrite Ht. destruct u; reflexivity.
Qed.

Lemma computeNextSampleTime_rejects_time (g : SVDBasisGenerator W S)
  (u rhs : pointer Vector) (time : float) :
  (0 <=? time)%float = false ->
  computeNextSampleTime u rhs time g = (Aborted, g).
Proof.
  intros Ht. unfold computeNextSampleTime. rewrite Ht.
  destruct u, rhs; reflexivity.
Qed.

(** X1: [isNextSample] called with a negative time, and
    [computeNextSampleTime] called with a null state, a null right-hand
    side or a negative time, stop on their assertion and leave the
    generator as it was. *)
Theorem time_queries_reject (g : SVDBasisGenerator W S)
  (u rhs : pointer Vector) (time : float) :
  ((time <? 0)%float = true -> isNextSample time g = (Aborted, g))
  /\
  (u = null \/ rhs = null \/ (time <? 0)%float = true ->
   computeNextSampleTime u rhs time g = (Aborted, g)).
Proof.
  split.
  - intros Ht. apply isNextSample_rejects, ltb_true_leb_false, Ht.
  - intros [-> | [-> | Ht]].
    + reflexivity.
    + destruct u; reflexivity.
    + apply computeNextSampleTime_rejects_time, ltb_true_leb_false, Ht.
Qed.

(** X2: a time that is not a number fails [time >= 0], so [isNextSample],
    [takeSample] and [computeNextSampleTime] all stop on their assertion
    and leave the generator as it was, whatever the other arguments. *)
Theorem nan_time_is_fatal (g : SVDBasisGenerator W S)
  (u rhs : pointer Vector) (time dt : float) :
  (time =? time)%float = false ->
  isNextSample time g = (Aborted, g)
  /\ takeSample u time dt g = (Aborted, g)
  /\ computeNextSampleTime u rhs time g = (Aborted, g).
Proof.
  intros Hnan. apply nan_not_nonnegative in Hnan.
  split; [| split].
  - apply isNextSample_rejects, Hnan.
  - apply takeSample_rejects_time, Hnan.
  - apply computeNextSampleTime_rejects_time, Hnan.
Qed.

(** X3: for an index inside [0, getNumBasisTimeIntervals()) the wrapper's
    [getBasisIntervalStartTime] is the sampler's; while no basis time
    interval exists every index is refused. *)
Theorem getBasisIntervalStartTime_in_range (g : SVDBasisGenerator W S)
  (which_interval : Z) :
  ((0 <= which_interval < getNumBasisTimeIntervals g)%Z ->
   getBasisIntervalStartTime which_interval g
   = on_sampler (sampler_getBasisIntervalStartTime which_interval) g)
  /\
  ((getNumBasisTimeIntervals g <= 0)%Z ->
   getBasisIntervalStartTime which_interval g = (Aborted, g)).
Proof.
  split.
  - intros [Hlo Hhi]. unfold getBasisIntervalStartTime.
    apply Z.leb_le in Hlo. rewrite Hlo, CAROM_ASSERT_holds.
    unfold bind at 1, gets at 1.
    apply Z.ltb_lt in Hhi. rewrite Hhi. reflexivity.
  - intros Hn. apply getBasisIntervalStartTime_out_of_range. lia.
Qed.

(** X4: away from an interval boundary (no basis time interval yet, or no
    new interval reported) the argument [dt] of [takeSample] is not used:
    two calls that differ only in [dt] do the same. *)
Theorem takeSample_ignores_dt (g : SVDBasisGenerator W S)
  (u : pointer Vector) (time dt1 dt2 : float) :
  (getNumBasisTimeIntervals g <= 0)%Z
  \/ sampler_isNewTimeInterval (d_svdsampler g) = false ->
  takeSample u time dt1 g = takeSample u time dt2 g.
Proof.
  intros Hoff.
  assert (C : (0 <? getNumBasisTimeIntervals g)%Z
              && sampler_isNewTimeInterval (d_svdsampler g) = false).
  { destruct Hoff as [Hn | Hnew].
    - apply Z.ltb_ge in Hn. rewrite Hn. reflexivity.
    - rewrite Hnew. apply andb_false_r. }
  destruct (nonnull u) eqn:Hu;
    [| destruct u; [discriminate | reflexivity]].
  destruct (0 <=? time)%float eqn:Ht.
  - rewrite !(takeSample_guarded g u time _ Hu Ht), C. reflexivity.
  - rewrite !(takeSample_rejects_time g u time _ Ht). reflexivity.
Qed.

End GeneratorFurther.

(** ** The writer pointer across the member functions *)

Create HintDb writer.

Section WriterPointerProperties.

Context {W S : Type} `{SVDSampler S} `{BasisWriter W S}.

Lemma leavesWriter_keeps {A : Type} (m : M (SVDBasisGenerator W S) A) :
  leavesWriter m -> keepsWriterConfigured m.
Proof. intros Hm g. rewrite (Hm g). reflexivity. Qed.

Lemma leavesWriter_ret {A : Type} (a : A) :
  leavesWriter (ret (St := SVDBasisGenerator W S) a).
Proof. intros g. reflexivity. Qed.

Lemma leavesWriter_gets {A : Type} (f : SVDBasisGenerator W S -> A) :
  leavesWriter (gets f).
Proof. intros g. reflexivity. Qed.

Lemma leavesWriter_CAROM_ASSERT (b : bool) :
  leavesWriter (CAROM_ASSERT (St := SVDBasisGenerator W S) b).
Proof. intros g. unfold CAROM_ASSERT. destruct b; reflexivity. Qed.

Lemma leavesWriter_on_sampler {A : Type} (m : M S A) :
  leavesWriter (on_sampler (W := W) m).
Proof. intros g. apply on_sampler_keeps_writer. Qed.

Lemma leavesWriter_bind {A B : Type}
  (m : M (SVDBasisGenerator W S) A) (k : A -> M (SVDBasisGenerator W S) B) :
  leavesWriter m -> (forall a, leavesWriter (k a)) -> leavesWriter (bind m k).
Proof.
  intros Hm Hk g. unfold bind. specialize (Hm g).
  destruct (m g) as [[a |] g']; simpl in *.
  - rewrite (Hk a g'). exact Hm.
  - exact Hm.
Qed.

Lemma keepsWriterConfigured_bind {A B : Type}
  (m : M (SVDBasisGenerator W S) A) (k : A -> M (SVDBasisGenerator W S) B) :
  keepsWriterConfigured m -> (forall a, keepsWriterConfigured (k a)) ->
  keepsWriterConfigured (bind m k).
Proof.
  intros Hm Hk g. unfold bind. specialize (Hm g).
  destruct (m g) as [[a |] g']; simpl in *.
  - rewrite (Hk a g'). exact Hm.
  - exact Hm.
Qed.

Lemma keepsWriterConfigured_when (c : bool)
  (body : M (SVDBasisGenerator W S) unit) :
  keepsWriterConfigured body -> keepsWriterConfigured (when c body).
Proof.
  intros Hb. unfold when. destruct c.
  - exact Hb.
  - apply leavesWriter_keeps, leavesWriter_ret.
Qed.

Lemma keepsWriterConfigured_writeBasis :
  keepsWriterConfigured (on_writer_writeBasis (W := W) (S := S)).
Proof.
  intros g. unfold on_writer_writeBasis.
  destruct (d_basis_writer g) as [w |] eqn:E.
  - destruct (writer_writeBasis (w, d_svdsampler g)) as [r ws]. reflexivity.
  - simpl. rewrite E. reflexivity.
Qed.

#[local] Hint Resolve leavesWriter_ret leavesWriter_gets
  leavesWriter_CAROM_ASSERT leavesWriter_on_sampler
  keepsWriterConfigured_writeBasis : writer.
#[local] Hint Resolve leavesWriter_keeps | 10 : writer.

Lemma keepsWriterConfigured_flush :
  keepsWriterConfigured (flush (W := W) (S := S)).
Proof.
  unfold flush. apply keepsWriterConfigured_bind; [auto with writer |].
  intros w. apply keepsWriterConfigured_when. auto with writer.
Qed.

(** X5: no member function configures or drops the writer.  The four
    that only ask the sampler ([isNextSample], [computeNextSampleTime],
    [getBasis], [getBasisIntervalStartTime]) leave the writer untouched,
    whether they return or stop; [takeSample] and [endSamples] may let the
    writer write, and afterwards the pointer is null exactly when it was
    null before. *)
Theorem writer_pointer_invariant :
  (forall time : float,
     leavesWriter (W := W) (S := S) (isNextSample time))
  /\ (forall (u rhs : pointer Vector) (time : float),
        leavesWriter (W := W) (S := S) (computeNextSampleTime u rhs time))
  /\ leavesWriter (W := W) (S := S) getBasis
  /\ (forall which_interval : Z,
        leavesWriter (W := W) (S := S)
          (getBasisIntervalStartTime which_interval))
  /\ (forall (u : pointer Vector) (time dt : float),
        keepsWriterConfigured (W := W) (S := S) (takeSample u time dt))
  /\ keepsWriterConfigured (W := W) (S := S) endSamples.
Proof.
  repeat split.
  - intros time. unfold isNextSample.
    apply leavesWriter_bind; auto with writer.
  - intros u rhs time. unfold computeNextSampleTime.
    repeat (apply leavesWriter_bind; [auto with writer | intros _]).
    auto with writer.
  - unfold getBasis. auto with writer.
  - intros which_interval. unfold getBasisIntervalStartTime.
    apply leavesWriter_bind; [auto with writer | intros _].
    apply leavesWriter_bind; [auto with writer | intros n].
    apply leavesWriter_bind; auto with writer.
  - intros u time dt. unfold takeSample.
    repeat (apply keepsWriterConfigured_bind; [auto with writer | intros _]).
    apply keepsWriterConfigured_bind; [auto with writer | intros c].
    apply keepsWriterConfigured_bind; [| auto with writer].
    apply keepsWriterConfigured_when.
    apply keepsWriterConfigured_bind; [auto with writer | intros _].
    apply keepsWriterConfigured_flush.
  - apply keepsWriterConfigured_flush.
Qed.

End WriterPointerProperties.

(** ** Sequencing inside [takeSample] *)

Section TakeSampleSequencing.

Context {W S : Type} `{SVDSampler S} `{BasisWriter W S}.

(** Two calls on the sampler in a row are one sequence on the sampler. *)
Lemma on_sampler_bind {A B : Type} (m : M S A) (k : A -> M S B)
  (g : SVDBasisGenerator W S) :
  on_sampler (bind m k) g
  = bind (on_sampler m) (fun a => on_sampler (k a)) g.
Proof.
  unfold on_sampler, bind.
  destruct (m (d_svdsampler g)) as [[a |] s']; reflexivity.
Qed.

(** X6: without a writer, a call of [takeSample] at an interval boundary
    touches the sampler only, and does so as the single sequence
    [resetDt(dt); takeSample(u_in, time)]: if [resetDt] stops, the sample
    is not taken. *)
Theorem takeSample_without_writer (g : SVDBasisGenerator W S)
  (u : pointer Vector) (time dt : float) :
  d_basis_writer g = null ->
  nonnull u = true ->
  (0 <=? time)%float = true ->
  (0 < getNumBasisTimeIntervals g)%Z ->
  sampler_isNewTimeInterval (d_svdsampler g) = true ->
  takeSample u time dt g
  = on_sampler
      (bind (sampler_resetDt dt) (fun _ => sampler_takeSample u time)) g.
Proof.
  intros Hw Hu Ht Hn Hnew.
  rewrite (takeSample_guarded g u time dt Hu Ht), Hnew.
  apply Z.ltb_lt in Hn. rewrite Hn. simpl.
  rewrite on_sampler_bind. unfold takeSample_at_new_interval, bind.
  pose proof (on_sampler_keeps_writer (sampler_resetDt dt) g) as K.
  destruct (on_sampler (sampler_resetDt dt) g) as [[[] |] g'];
    simpl in K; [| reflexivity].
  rewrite (flush_without_writer g') by (rewrite K; exact Hw).
  reflexivity.
Qed.

(** X7: when the writer's [writeBasis] is fatal at an interval boundary,
    [takeSample] stops there: [dt] has been reset, and the sample is never
    handed to the sampler. *)
Theorem failed_flush_stops_takeSample (g : SVDBasisGenerator W S)
  (u : pointer Vector) (time dt : float) (w : W) (s1 : S) (ws : W * S) :
  nonnull u = true ->
  (0 <=? time)%float = true ->
  (0 < getNumBasisTimeIntervals g)%Z ->
  sampler_isNewTimeInterval (d_svdsampler g) = true ->
  d_basis_writer g = Some w ->
  sampler_resetDt dt (d_svdsampler g) = (Returned tt, s1) ->
  writer_writeBasis (w, s1) = (Aborted, ws) ->
  takeSample u time dt g
  = (Aborted, {| d_basis_writer := Some (fst ws); d_svdsampler := snd ws |}).
Proof.
  intros Hu Ht Hn Hnew Hw Hreset Hwrite.
  rewrite (takeSample_guarded g u time dt Hu Ht), Hnew.
  apply Z.ltb_lt in Hn. rewrite Hn. simpl.
  unfold takeSample_at_new_interval, bind at 1, on_sampler at 1.
  rewrite Hreset.
  unfold bind at 1, flush, bind at 1, gets, when. simpl. rewrite Hw. simpl.
  unfold on_writer_writeBasis. simpl. rewrite Hwrite. reflexivity.
Qed.

End TakeSampleSequencing.

(** ** Concrete runs of the further properties *)

(** Witness of X1: a negative time, and a null right-hand side. *)
Lemma time_queries_reject_witness :
  isNextSample (-1)%float fullGenerator = (Aborted, fullGenerator)
  /\ computeNextSampleTime (Some [1; 0; 0]%float) null 2%float fullGenerator
     = (Aborted, fullGenerator).
Proof.
  destruct (time_queries_reject fullGenerator (Some [1; 0; 0]%float) null
              (-1)%float) as (H1 & _).
  destruct (time_queries_reject fullGenerator (Some [1; 0; 0]%float) null
              2%float) as (_ & H2).
  split.
  - apply H1. reflexivity.
  - apply H2. right. left. reflexivity.
Defined.

(** Witness of X2: the time [nan] on the full generator. *)
Lemma nan_time_is_fatal_witness :
  isNextSample nan fullGenerator = (Aborted, fullGenerator)
  /\ takeSample (Some [1; 0; 0]%float) nan 0.5%float fullGenerator
     = (Aborted, fullGenerator)
  /\ computeNextSampleTime (Some [1; 0; 0]%float) (Some [0; 1; 0]%float) nan
       fullGenerator
     = (Aborted, fullGenerator).
Proof.
  exact (nan_time_is_fatal fullGenerator (Some [1; 0; 0]%float)
           (Some [0; 1; 0]%float) nan 0.5%float eq_refl).
Defined.

(** Witness of X3: index 0 with one interval, and with none. *)
Lemma getBasisIntervalStartTime_in_range_witness :
  getBasisIntervalStartTime 0 fullGenerator = (Returned 0%float, fullGenerator)
  /\ getBasisIntervalStartTime 0 freshGenerator = (Aborted, freshGenerator).
Proof.
  destruct (getBasisIntervalStartTime_in_range fullGenerator 0) as (H1 & _).
  destruct (getBasisIntervalStartTime_in_range freshGenerator 0) as (_ & H2).
  split.
  - rewrite H1; [reflexivity | vm_compute; split; [discriminate | reflexivity]].
  - apply H2. vm_compute. discriminate.
Defined.

(** Witness of X4: the first sample with two different [dt]. *)
Lemma takeSample_ignores_dt_witness :
  takeSample (Some [1; 0; 0]%float) 0%float 0.5%float freshGenerator
  = takeSample (Some [1; 0; 0]%float) 0%float 0.25%float freshGenerator.
Proof.
  apply (takeSample_ignores_dt freshGenerator (Some [1; 0; 0]%float) 0%float
           0.5%float 0.25%float).
  left. vm_compute. discriminate.
Defined.

(** Witness of X6: the third sample on the generator without a writer. *)
Lemma takeSample_without_writer_witness :
  takeSample (Some [1; 0; 0]%float) 2%float 0.5%float silentGenerator
  = on_sampler
      (bind (sampler_resetDt 0.5%float)
         (fun _ => sampler_takeSample (Some [1; 0; 0]%float) 2%float))
      silentGenerator.
Proof.
  apply (takeSample_without_writer silentGenerator (Some [1; 0; 0]%float)
           2%float 0.5%float); reflexivity.
Defined.

(** Witness of X7: the third sample with the broken writer; the sampler
    still holds two samples, with [dt] reset. *)
Lemma failed_flush_stops_takeSample_witness :
  takeSample (Some [1; 0; 0]%float) 2%float 0.5%float brokenGenerator
  = (Aborted,
     {| d_basis_writer := Some brokenWriter;
        d_svdsampler :=
          {| cs_samples_per_time_interval := 2;
             cs_num_samples := 2;
             cs_start_times := [0%float];
             cs_dt := 0.5%float;
             cs_samples := [[0; 1; 0]%float; [1; 0; 0]%float] |} |}).
Proof.
  exact (failed_flush_stops_takeSample brokenGenerator
           (Some [1; 0; 0]%float) 2%float 0.5%float brokenWriter
           {| cs_samples_per_time_interval := 2;
              cs_num_samples := 2;
              cs_start_times := [0%float];
              cs_dt := 0.5%float;
              cs_samples := [[0; 1; 0]%float; [1; 0; 0]%float] |}
           (brokenWriter,
            {| cs_samples_per_time_interval := 2;
               cs_num_samples := 2;
               cs_start_times := [0%float];
               cs_dt := 0.5%float;
               cs_samples := [[0; 1; 0]%float; [1; 0; 0]%float] |})
           eq_refl eq_refl eq_refl eq_refl eq_refl eq_refl eq_refl).
Defined.

(** ** Arithmetic of doubles that is exact *)













(** ** Sums and products over an axis sample *)








(** ** The state built from the first sample *)










(** ** Every sample has its row *)

Section SampleTrackingProperties.

Variable svd : Matrix -> Matrix * Matrix.
Variable dim : nat.
Variable tol : float.
Variable skip : bool.




End SampleTrackingProperties.

(** ** Orthonormality and reconstruction *)







(** A first sample with more than one non-zero entry: for [[3,4,0]] the
    norm is 5, [U^T U] is 1 and the reconstruction is the sample. *)
Example first_sample_3_4_0 :
  orthonormalWithin orthonormalityTolerance
    (initialBasisState 3 [3; 4; 0]%float 0%float) = true
  /\ reconstruct (initialBasisState 3 [3; 4; 0]%float 0%float) 0
     = [3; 4; 0]%float.
Proof. split; reflexivity. Qed.
